(** * verify_mui_ui.py: a headless-browser screenshot script

    The script under [jules-scratch/verification/verify_mui_ui.py] drives
    a browser through the Playwright synchronous API.  Its text is a
    straight-line sequence of API calls inside one [with] statement, so
    the embedding is a state-and-exception monad over an explicit world
    (the files on disk, the directories made, the process' subprocesses,
    the open pages and a log of the API calls made), the Playwright
    entry points the script uses written as operations of that monad,
    and the script itself transcribed call by call on top of them.

    Only the script is in the repository.  The library and the browser
    are not: their entry points are modelled, each under a comment that
    says so, and what they do in a given run (whether the driver and the
    browser start, what answers at a URL, what the page renders, how a
    write to the disk ends) is gathered in one record [Env], fixed for a
    run and quantified over in the theorems. *)

From stdpp Require Import gmap strings list fin_maps.

Local Open Scope string_scope.
Local Open Scope list_scope.
Local Open Scope stdpp_scope.

(** ** Rendered pages and images *)

Module Image.

(** A pixel is an opaque colour value; an image is a list of pixel
    rows, top row first. *)
Definition Pixel := N.
Definition Row := list Pixel.
Definition t := list Row.

(** Modelled from the spec: the default viewport of a Playwright page,
    which the repository does not set. *)
Definition viewport_width : nat := 1280.
Definition viewport_height : nat := 720.

Definition white : Pixel := 16777215%N.
Definition blank_row : Row := replicate viewport_width white.

(** Modelled from the spec: how the browser shows a document shorter
    than the viewport, on the page background. *)
Definition pad (doc : t) : t :=
  doc ++ replicate (viewport_height - length doc) blank_row.

(** Modelled from the spec: the browser's screenshot, which is not in
    the repository.  The default captures what the default viewport
    shows; [full_page=True] captures the whole scrollable page. *)
Definition capture (full_page : bool) (doc : t) : t :=
  if full_page then pad doc else take viewport_height (pad doc).

(** Every PNG stream opens with the same eight bytes. *)
Definition png_signature : list Byte.byte :=
  [Byte.x89; Byte.x50; Byte.x4e; Byte.x47;
   Byte.x0d; Byte.x0a; Byte.x1a; Byte.x0a].

(** Modelled from the spec: the browser's PNG encoder, which is not in
    the repository; the chunk stream after the signature is left to the
    outside world. *)
Definition png_encode (chunks : t -> list Byte.byte) (img : t)
  : list Byte.byte :=
  png_signature ++ chunks img.

End Image.

(** ** Paths *)

(** The directories on the way to a path: every proper prefix that ends
    before a slash (character 47).  [seen] is the part of the path
    already read. *)
Fixpoint ancestors (seen : string) (path : string) : list string :=
  match path with
  | EmptyString => []
  | String c rest =>
      if Ascii.eqb c (Ascii.ascii_of_nat 47)
      then (if String.eqb seen "" then [] else [seen])
           ++ ancestors (String.append seen "/") rest
      else ancestors (String.append seen (String c "")) rest
  end.

Definition parents (path : string) : list string := ancestors "" path.

(** ** The world outside the script *)

(** What a page shows once loaded: which selectors become attached and
    visible within the default timeout, and the rendering of the whole
    scrollable document at the viewport's width. *)
Record Document := {
  visible : string -> bool;
  rendering : Image.t
}.

Definition about_blank : Document :=
  {| visible := fun _ => false; rendering := [] |}.

Inductive Navigation :=
| Loaded (d : Document)
| ConnectionRefused
| NameNotResolved
| NavigationTimeout.

Inductive Errno := EACCES | ENOENT | ENOSPC | EROFS | EISDIR.

(** How starting the driver ends: it runs, its executable is not where
    it is looked for, or it breaks while the connection is set up. *)
Inductive DriverStart := Starts | NodeMissing | DriverBreaks.

(** How writing a file ends.  The parent directories are made first,
    then the file is opened for writing, which empties it, then the
    bytes are written: a failure of the last step leaves the bytes
    written so far. *)
Inductive WriteOutcome :=
| Written
| MkdirFails (errno : Errno)
| OpenFails (errno : Errno)
| WriteFails (errno : Errno) (written : nat).

Inductive BrowserType := Chromium | Firefox | Webkit.

Record Env := {
  (** [import playwright.sync_api] resolves *)
  package_installed : bool;
  (** how the driver starts, given the value of PLAYWRIGHT_NODEJS_PATH *)
  driver : option string -> DriverStart;
  (** each browser can be started, in the given mode *)
  chromium_launches : bool -> bool;
  firefox_launches : bool -> bool;
  webkit_launches : bool -> bool;
  (** the temporary profile directory a launch makes *)
  profile_dir : string;
  (** a page can be opened in a running browser *)
  page_opens : bool;
  (** what a navigation to a URL ends in *)
  navigate : string -> Navigation;
  (** what a write to a path ends in *)
  write_outcome : string -> WriteOutcome;
  (** the chunk stream (IHDR .. IEND) the encoder emits for an image *)
  png_chunks : Image.t -> list Byte.byte;
  (** the browser closes when asked to *)
  close_ok : bool
}.

Definition launches (env : Env) (bt : BrowserType) (headless : bool) : bool :=
  match bt with
  | Chromium => chromium_launches env headless
  | Firefox => firefox_launches env headless
  | Webkit => webkit_launches env headless
  end.

(** ** Exceptions, results and the monad *)

Inductive Why :=
| LaunchFailed | PageFailed | TargetClosed | NavigationFailed | CloseFailed.

(** [FileNotFoundError] is [OSError ENOENT]; [Error] and [TimeoutError]
    are Playwright's; [Exception] is the plain built-in one. *)
Inductive Exn :=
| ModuleNotFoundError
| Exception
| Error (why : Why)
| TimeoutError
| OSError (errno : Errno).

Inductive Res (A : Type) :=
| Ok (a : A)
| Raise (e : Exn).
Arguments Ok {A} a.
Arguments Raise {A} e.

(** The API calls a run can make, with the receiver's browser type and
    the keyword arguments as the caller gave them ([None]: keyword left
    out). *)
Inductive Call :=
| CStart
| CLaunch (bt : BrowserType) (headless : option bool)
| CNewPage
| CGoto (url : string)
| CWaitForSelector (selector : string)
| CScreenshot (path : option string) (full_page : option bool)
| CClose
| CStop.

Record World := {
  fs : gmap string (list Byte.byte);      (* files on disk *)
  made_dirs : gset string;                 (* directories made so far *)
  sys_argv : list string;
  os_environ : gmap string string;
  driver_up : bool;                        (* the driver subprocess runs *)
  browsers : gset nat;                     (* live browser subprocesses *)
  reaped : nat;                            (* browsers ended by stopping the driver *)
  windows : nat;                           (* visible windows opened so far *)
  pages : gmap nat (nat * Document);       (* page |-> (its browser, its document) *)
  next_id : nat;                           (* next fresh handle *)
  log : list (Call * bool)                 (* calls made, with success *)
}.

Definition M (A : Type) : Type := World -> Res A * World.

Global Instance M_ret : MRet M := fun A a w => (Ok a, w).
Global Instance M_bind : MBind M := fun A B f m w =>
  match m w with
  | (Ok a, w') => f a w'
  | (Raise e, w') => (Raise e, w')
  end.

Definition raise {A} (e : Exn) : M A := fun w => (Raise e, w).
Definition get : M World := fun w => (Ok w, w).
Definition modify (f : World -> World) : M unit := fun w => (Ok tt, f w).

(** [with cm as x: body].  [__exit__] runs however the body ends, is told
    the pending exception, and suppresses it by returning true; nothing
    is cleaned up when [__enter__] itself raises. *)
Definition with_ {R A} (enter : M R) (exit : option Exn -> M bool)
    (body : R -> M A) : M (option A) := fun w =>
  match enter w with
  | (Raise e, w1) => (Raise e, w1)
  | (Ok r, w1) =>
      match body r w1 with
      | (Ok a, w2) =>
          match exit None w2 with
          | (Ok _, w3) => (Ok (Some a), w3)
          | (Raise e', w3) => (Raise e', w3)
          end
      | (Raise e, w2) =>
          match exit (Some e) w2 with
          | (Ok true, w3) => (Ok None, w3)
          | (Ok false, w3) => (Raise e, w3)
          | (Raise e', w3) => (Raise e', w3)
          end
      end
  end.

(** ** The Playwright entry points the script calls

    None of this is the repository's code.  Each entry point is written
    from the spec and the library's documented behaviour, as far as the
    script depends on it: what it changes in the world, when it raises
    and what, and which defaults apply to the keywords the caller
    leaves out.  Every call is appended to the log with its outcome. *)

Module Playwright.

Definition set_fs (f : gmap string (list Byte.byte)) (w : World) : World :=
  {| fs := f; made_dirs := made_dirs w;
     sys_argv := sys_argv w; os_environ := os_environ w;
     driver_up := driver_up w; browsers := browsers w; reaped := reaped w;
     windows := windows w; pages := pages w; next_id := next_id w;
     log := log w |}.

Definition add_dirs (ds : list string) (w : World) : World :=
  {| fs := fs w; made_dirs := list_to_set ds ∪ made_dirs w;
     sys_argv := sys_argv w; os_environ := os_environ w;
     driver_up := driver_up w; browsers := browsers w; reaped := reaped w;
     windows := windows w; pages := pages w; next_id := next_id w;
     log := log w |}.

Definition set_procs (up : bool) (bs : gset nat)
    (ps : gmap nat (nat * Document)) (w : World) : World :=
  {| fs := fs w; made_dirs := made_dirs w;
     sys_argv := sys_argv w; os_environ := os_environ w;
     driver_up := up; browsers := bs; reaped := reaped w;
     windows := windows w; pages := ps; next_id := next_id w;
     log := log w |}.

Definition set_pages (ps : gmap nat (nat * Document)) (w : World) : World :=
  set_procs (driver_up w) (browsers w) ps w.

Definition reap (w : World) : World :=
  {| fs := fs w; made_dirs := made_dirs w;
     sys_argv := sys_argv w; os_environ := os_environ w;
     driver_up := false; browsers := ∅;
     reaped := reaped w + size (browsers w);
     windows := windows w; pages := ∅; next_id := next_id w;
     log := log w |}.

Definition open_window (w : World) : World :=
  {| fs := fs w; made_dirs := made_dirs w;
     sys_argv := sys_argv w; os_environ := os_environ w;
     driver_up := driver_up w; browsers := browsers w; reaped := reaped w;
     windows := S (windows w); pages := pages w; next_id := next_id w;
     log := log w |}.

Definition bump (w : World) : World :=
  {| fs := fs w; made_dirs := made_dirs w;
     sys_argv := sys_argv w; os_environ := os_environ w;
     driver_up := driver_up w; browsers := browsers w; reaped := reaped w;
     windows := windows w; pages := pages w; next_id := S (next_id w);
     log := log w |}.

Definition record (c : Call) (ok : bool) (w : World) : World :=
  {| fs := fs w; made_dirs := made_dirs w;
     sys_argv := sys_argv w; os_environ := os_environ w;
     driver_up := driver_up w; browsers := browsers w; reaped := reaped w;
     windows := windows w; pages := pages w; next_id := next_id w;
     log := log w ++ [(c, ok)] |}.

(** A call that went through, and one that raised. *)
Definition done_ (c : Call) : M unit := modify (record c true).
Definition failed {A} (c : Call) (e : Exn) : M A :=
  modify (record c false) ;; raise e.

Definition fresh_id : M nat :=
  w ← get; modify bump ;; mret (next_id w).

(** Handles.  The [Playwright] object gives access to the browser
    types; a browser and a page are handles into the world. *)
Record Playwright := {
  chromium : BrowserType;
  firefox : BrowserType;
  webkit : BrowserType
}.
Record Browser := { browser_pid : nat }.
Record Page := { page_id : nat }.

Section Api.
Variable env : Env.

(** Modelled from the spec: [sync_playwright().__enter__()], which is
    not in the repository.  It starts the driver with the executable
    PLAYWRIGHT_NODEJS_PATH names, or the bundled one; a missing
    executable raises FileNotFoundError, a driver that breaks a plain
    Exception. *)
Definition start : M Playwright :=
  w ← get;
  match driver env (os_environ w !! "PLAYWRIGHT_NODEJS_PATH") with
  | Starts =>
      modify (fun w => set_procs true (browsers w) (pages w) w) ;;
      done_ CStart ;;
      mret {| chromium := Chromium; firefox := Firefox; webkit := Webkit |}
  | NodeMissing => failed CStart (OSError ENOENT)
  | DriverBreaks => failed CStart Exception
  end.

(** Modelled from the spec: [sync_playwright().__exit__(...)], which is
    not in the repository.  The spec has the session torn down on every
    exit path once it was set up: stopping the driver ends the browsers
    still running under it, which are counted, and lets a pending
    exception through. *)
Definition stop (pending : option Exn) : M bool :=
  modify reap ;;
  done_ CStop ;;
  mret false.

(** Modelled from the spec: [browser_type.launch(headless=...)], which
    is not in the repository; headless unless told otherwise.  The
    temporary profile directory is made before the browser is started
    and stays behind when the start fails. *)
Definition launch (bt : BrowserType) (headless : option bool) : M Browser :=
  let c := CLaunch bt headless in
  let h := default true headless in
  w ← get;
  modify (add_dirs [profile_dir env]) ;;
  if driver_up w && launches env bt h then
    pid ← fresh_id;
    modify (fun w => set_procs (driver_up w) ({[pid]} ∪ browsers w) (pages w) w) ;;
    (if h then mret tt else modify open_window) ;;
    done_ c ;;
    mret {| browser_pid := pid |}
  else failed c (Error LaunchFailed).

(** Modelled from the spec: [browser.new_page()], which is not in the
    repository: a page on [about:blank], or an error when the browser
    is gone or cannot open one. *)
Definition new_page (b : Browser) : M Page :=
  w ← get;
  if bool_decide (browser_pid b ∈ browsers w) then
    if page_opens env then
      id ← fresh_id;
      modify (fun w => set_pages (<[id := (browser_pid b, about_blank)]> (pages w)) w) ;;
      done_ CNewPage ;;
      mret {| page_id := id |}
    else failed CNewPage (Error PageFailed)
  else failed CNewPage (Error TargetClosed).

(** Modelled from the spec: [page.goto(url)], which is not in the
    repository. *)
Definition goto (p : Page) (url : string) : M unit :=
  let c := CGoto url in
  w ← get;
  match pages w !! page_id p with
  | None => failed c (Error TargetClosed)
  | Some (b, _) =>
      match navigate env url with
      | Loaded d =>
          modify (set_pages (<[page_id p := (b, d)]> (pages w))) ;;
          done_ c
      | NavigationTimeout => failed c TimeoutError
      | ConnectionRefused | NameNotResolved =>
          failed c (Error NavigationFailed)
      end
  end.

(** Modelled from the spec: [page.wait_for_selector(selector)], which is
    not in the repository: it returns once the element is attached and
    visible, and raises when the default timeout passes first. *)
Definition wait_for_selector (p : Page) (selector : string) : M unit :=
  let c := CWaitForSelector selector in
  w ← get;
  match pages w !! page_id p with
  | None => failed c (Error TargetClosed)
  | Some (_, d) =>
      if visible d selector then done_ c else failed c TimeoutError
  end.

(** Modelled from the spec: [page.screenshot(path=..., full_page=...)],
    which is not in the repository: capture, encode as PNG, and when a
    path is given make its parent directories, open the file, which
    empties it, and write the bytes; then return the bytes. *)
Definition screenshot (p : Page) (path : option string)
    (full_page : option bool) : M (list Byte.byte) :=
  let c := CScreenshot path full_page in
  w ← get;
  match pages w !! page_id p with
  | None => failed c (Error TargetClosed)
  | Some (_, d) =>
      let data :=
        Image.png_encode (png_chunks env)
          (Image.capture (default false full_page) (rendering d)) in
      match path with
      | None => done_ c ;; mret data
      | Some f =>
          match write_outcome env f with
          | MkdirFails errno => failed c (OSError errno)
          | OpenFails errno =>
              modify (add_dirs (parents f)) ;;
              failed c (OSError errno)
          | WriteFails errno n =>
              modify (add_dirs (parents f)) ;;
              modify (fun w => set_fs (<[f := take n data]> (fs w)) w) ;;
              failed c (OSError errno)
          | Written =>
              modify (add_dirs (parents f)) ;;
              modify (fun w => set_fs (<[f := data]> (fs w)) w) ;;
              done_ c ;;
              mret data
          end
      end
  end.

(** Modelled from the spec: [browser.close()], which is not in the
    repository: it ends the browser subprocess and its pages, or raises
    and leaves them; closing twice is harmless. *)
Definition close (b : Browser) : M unit :=
  if close_ok env then
    modify (fun w =>
      set_procs (driver_up w) (browsers w ∖ {[browser_pid b]})
        (filter (fun kv => kv.2.1 ≠ browser_pid b) (pages w)) w) ;;
    done_ CClose
  else failed CClose (Error CloseFailed).

(** [from playwright.sync_api import sync_playwright] *)
Definition import_sync_api : M unit :=
  if package_installed env then mret tt else raise ModuleNotFoundError.

End Api.

End Playwright.

(** ** The script *)

Module Script.
Import Playwright.

Definition target_url : string := "http://localhost:8080/".
Definition heading : string := "h1".
Definition output_path : string :=
  "jules-scratch/verification/verification.png".

Section Source.
Variable env : Env.

(** [def run():], line by line. *)
Definition run : M unit :=
  with_ (start env) (stop) (fun p =>
    browser ← launch env (chromium p) (Some true);
    page ← new_page env browser;
    goto env page "http://localhost:8080/" ;;
    wait_for_selector page "h1" ;;  (* Wait for the main heading to be visible *)
    screenshot env page (Some "jules-scratch/verification/verification.png") None ;;
    close env browser) ;;
  mret tt.

(** The module's top level: the import, the definition of [run], and
    the guarded call. *)
Definition module (name : string) : M unit :=
  import_sync_api env ;;
  if String.eqb name "__main__" then run else mret tt.

End Source.

(** A fresh interpreter process: no subprocess, no page, nothing
    logged, no directory made; the disk, the arguments and the
    environment variables are what the caller provides. *)
Definition boot (argv : list string) (environ : gmap string string)
    (disk : gmap string (list Byte.byte)) : World :=
  {| fs := disk; made_dirs := ∅; sys_argv := argv; os_environ := environ;
     driver_up := false; browsers := ∅; reaped := 0; windows := 0;
     pages := ∅; next_id := 0; log := [] |}.

(** [python verify_mui_ui.py args...]: the file runs as [__main__]. *)
Definition python (env : Env) (argv : list string)
    (environ : gmap string string) (disk : gmap string (list Byte.byte))
  : Res unit * World :=
  module env "__main__" (boot argv environ disk).

(** An uncaught exception ends the interpreter with status 1. *)
Definition exit_status (r : Res unit) : Z :=
  match r with
  | Ok _ => 0
  | Raise _ => 1
  end.

(** The calls the with-block is written to make, in program order. *)
Definition steps : list Call :=
  [ CLaunch Chromium (Some true);
    CNewPage;
    CGoto target_url;
    CWaitForSelector heading;
    CScreenshot (Some output_path) None;
    CClose ].

(** The variable the driver's start reads. *)
Definition node_path : string := "PLAYWRIGHT_NODEJS_PATH".

End Script.

Import Playwright Script.

Global Instance BrowserType_eq_dec : EqDecision BrowserType.
Proof. solve_decision. Defined.

Global Instance Call_eq_dec : EqDecision Call.
Proof. solve_decision. Defined.

Arguments Image.capture : simpl never.
Arguments Image.png_encode : simpl never.

(** ** How far a run gets *)

(** The exception a failed start of the driver comes out as, and the
    errno a failed write comes out with. *)
Definition start_error (s : DriverStart) : option Exn :=
  match s with
  | Starts => None
  | NodeMissing => Some (OSError ENOENT)
  | DriverBreaks => Some Exception
  end.

Definition fs_error (o : WriteOutcome) : option Errno :=
  match o with
  | Written => None
  | MkdirFails errno | OpenFails errno | WriteFails errno _ => Some errno
  end.

(** A run stops at the first thing that goes wrong, so the outside world
    and the environment variables sort runs into nine kinds. *)
Inductive Stage :=
| NoPackage
| NoDriver (e : Exn)
| NoBrowser
| NoPage
| NoNavigation (e : Exn)
| NoHeading (d : Document)
| NoWrite (d : Document) (o : WriteOutcome) (errno : Errno)
| NoClose (d : Document)
| Completed (d : Document).

Definition stage (env : Env) (environ : gmap string string) : Stage :=
  if negb (package_installed env) then NoPackage
  else
    match start_error (driver env (environ !! node_path)) with
    | Some e => NoDriver e
    | None =>
        if negb (chromium_launches env true) then NoBrowser
        else if negb (page_opens env) then NoPage
        else
          match navigate env target_url with
          | ConnectionRefused | NameNotResolved =>
              NoNavigation (Error NavigationFailed)
          | NavigationTimeout => NoNavigation TimeoutError
          | Loaded d =>
              if negb (visible d heading) then NoHeading d
              else
                match fs_error (write_outcome env output_path) with
                | Some errno => NoWrite d (write_outcome env output_path) errno
                | None => if close_ok env then Completed d else NoClose d
                end
          end
    end.

(** The log of a list of calls of which the first [n] go through and the
    next one, if there is one, raises. *)
Fixpoint outcome_of (n : nat) (cs : list Call) : list (Call * bool) :=
  match cs, n with
  | [], _ => []
  | c :: _, 0 => [(c, false)]
  | c :: cs', S n' => (c, true) :: outcome_of n' cs'
  end.

(** The with-statement's own two calls around those of its body. *)
Definition bracket (body : list (Call * bool)) : list (Call * bool) :=
  (CStart, true) :: body ++ [(CStop, true)].

(** The file a default screenshot of a document is written as. *)
Definition shot (env : Env) (d : Document) : list Byte.byte :=
  Image.png_encode (png_chunks env) (Image.capture false (rendering d)).

(** The files after the screenshot's write, by how the write ended. *)
Definition files_after (env : Env) (d : Document) (o : WriteOutcome)
    (disk : gmap string (list Byte.byte)) : gmap string (list Byte.byte) :=
  match o with
  | Written => <[output_path := shot env d]> disk
  | WriteFails _ n => <[output_path := take n (shot env d)]> disk
  | MkdirFails _ | OpenFails _ => disk
  end.

(** The directories made once the launch was tried, and once the
    screenshot's parent directories were made too. *)
Definition launch_dirs (env : Env) (base : gset string) : gset string :=
  list_to_set [profile_dir env] ∪ base.

Definition shot_dirs (env : Env) (base : gset string) : gset string :=
  list_to_set (parents output_path) ∪ launch_dirs env base.

Definition dirs_after (env : Env) (o : WriteOutcome) (base : gset string)
  : gset string :=
  match o with
  | MkdirFails _ => launch_dirs env base
  | _ => shot_dirs env base
  end.

(** A process that has ended: no subprocess and no page left. *)
Definition halted (argv : list string) (environ : gmap string string)
    (files : gmap string (list Byte.byte)) (dirs : gset string)
    (ended_by_driver : nat) (ids : nat) (calls : list (Call * bool)) : World :=
  {| fs := files; made_dirs := dirs; sys_argv := argv; os_environ := environ;
     driver_up := false; browsers := ∅; reaped := ended_by_driver;
     windows := 0; pages := ∅; next_id := ids; log := calls |}.

Definition final (env : Env) (argv : list string)
    (environ : gmap string string) (disk : gmap string (list Byte.byte))
    (s : Stage) : Res unit * World :=
  match s with
  | NoPackage =>
      (Raise ModuleNotFoundError, halted argv environ disk ∅ 0 0 [])
  | NoDriver e =>
      (Raise e, halted argv environ disk ∅ 0 0 [(CStart, false)])
  | NoBrowser =>
      (Raise (Error LaunchFailed),
       halted argv environ disk (launch_dirs env ∅) 0 0
         (bracket (outcome_of 0 steps)))
  | NoPage =>
      (Raise (Error PageFailed),
       halted argv environ disk (launch_dirs env ∅) 1 1
         (bracket (outcome_of 1 steps)))
  | NoNavigation e =>
      (Raise e,
       halted argv environ disk (launch_dirs env ∅) 1 2
         (bracket (outcome_of 2 steps)))
  | NoHeading _ =>
      (Raise TimeoutError,
       halted argv environ disk (launch_dirs env ∅) 1 2
         (bracket (outcome_of 3 steps)))
  | NoWrite d o errno =>
      (Raise (OSError errno),
       halted argv environ (files_after env d o disk) (dirs_after env o ∅) 1 2
         (bracket (outcome_of 4 steps)))
  | NoClose d =>
      (Raise (Error CloseFailed),
       halted argv environ (<[output_path := shot env d]> disk)
         (shot_dirs env ∅) 1 2 (bracket (outcome_of 5 steps)))
  | Completed d =>
      (Ok tt,
       halted argv environ (<[output_path := shot env d]> disk)
         (shot_dirs env ∅) 0 2 (bracket (outcome_of 6 steps)))
  end.

(** What the outside world must be like for each kind of run. *)
Definition loads (n : Navigation) : bool :=
  match n with
  | Loaded _ => true
  | _ => false
  end.

Inductive stage_spec (env : Env) (environ : gmap string string)
  : Stage -> Prop :=
| at_NoPackage :
    package_installed env = false ->
    stage_spec env environ NoPackage
| at_NoDriver e :
    package_installed env = true ->
    start_error (driver env (environ !! node_path)) = Some e ->
    stage_spec env environ (NoDriver e)
| at_NoBrowser :
    package_installed env = true ->
    driver env (environ !! node_path) = Starts ->
    chromium_launches env true = false ->
    stage_spec env environ NoBrowser
| at_NoPage :
    package_installed env = true ->
    driver env (environ !! node_path) = Starts ->
    chromium_launches env true = true ->
    page_opens env = false ->
    stage_spec env environ NoPage
| at_NoNavigation e :
    package_installed env = true ->
    driver env (environ !! node_path) = Starts ->
    chromium_launches env true = true ->
    page_opens env = true ->
    loads (navigate env target_url) = false ->
    stage_spec env environ (NoNavigation e)
| at_NoHeading d :
    package_installed env = true ->
    driver env (environ !! node_path) = Starts ->
    chromium_launches env true = true ->
    page_opens env = true ->
    navigate env target_url = Loaded d ->
    visible d heading = false ->
    stage_spec env environ (NoHeading d)
| at_NoWrite d o errno :
    package_installed env = true ->
    driver env (environ !! node_path) = Starts ->
    chromium_launches env true = true ->
    page_opens env = true ->
    navigate env target_url = Loaded d ->
    visible d heading = true ->
    write_outcome env output_path = o ->
    fs_error o = Some errno ->
    stage_spec env environ (NoWrite d o errno)
| at_NoClose d :
    package_installed env = true ->
    driver env (environ !! node_path) = Starts ->
    chromium_launches env true = true ->
    page_opens env = true ->
    navigate env target_url = Loaded d ->
    visible d heading = true ->
    write_outcome env output_path = Written ->
    close_ok env = false ->
    stage_spec env environ (NoClose d)
| at_Completed d :
    package_installed env = true ->
    driver env (environ !! node_path) = Starts ->
    chromium_launches env true = true ->
    page_opens env = true ->
    navigate env target_url = Loaded d ->
    visible d heading = true ->
    write_outcome env output_path = Written ->
    close_ok env = true ->
    stage_spec env environ (Completed d).

(** ** Observations on a run *)

Definition result (env : Env) (argv : list string)
    (environ : gmap string string) (disk : gmap string (list Byte.byte))
  : Res unit :=
  (python env argv environ disk).1.

Definition after (env : Env) (argv : list string)
    (environ : gmap string string) (disk : gmap string (list Byte.byte))
  : World :=
  (python env argv environ disk).2.

Definition status (env : Env) (argv : list string)
    (environ : gmap string string) (disk : gmap string (list Byte.byte))
  : Z :=
  exit_status (result env argv environ disk).

(** The call was made, with the given success; and: it went through. *)
Definition made (c : Call) (ok : bool) (w : World) : bool :=
  bool_decide ((c, ok) ∈ log w).

Definition ran (c : Call) (w : World) : bool := made c true w.

(** The disk after two runs in a row: the second starts from the disk
    the first left. *)
Definition disk_after_two (env1 env2 : Env) (argv1 argv2 : list string)
    (environ1 environ2 : gmap string string)
    (disk : gmap string (list Byte.byte)) : gmap string (list Byte.byte) :=
  fs (after env2 argv2 environ2 (fs (after env1 argv1 environ1 disk))).

(** ** Sample outside worlds *)

Module Sample.

Definition row (p : Image.Pixel) : Image.Row := [p; p; p].

(** A page with a heading, two pixel rows tall. *)
Definition home : Document :=
  {| visible := fun s => String.eqb s "h1";
     rendering := [row 1%N; row 2%N] |}.

(** A page that never shows a heading. *)
Definition bare : Document :=
  {| visible := fun _ => false; rendering := [row 7%N] |}.

Definition chunks (img : Image.t) : list Byte.byte :=
  match img with
  | (1%N :: _) :: _ => [Byte.x01]
  | _ => [Byte.x00]
  end.

(** A machine on which everything is installed; the driver starts
    unless PLAYWRIGHT_NODEJS_PATH names the one path that does not
    exist. *)
Definition world (nav : Navigation) (w : WriteOutcome) : Env :=
  {| package_installed := true;
     driver := fun node =>
       match node with
       | Some path => if String.eqb path "/no/such/node" then NodeMissing
                      else Starts
       | None => Starts
       end;
     chromium_launches := fun _ => true;
     firefox_launches := fun _ => false;
     webkit_launches := fun _ => false;
     profile_dir := "/tmp/playwright_chromiumdev_profile-a1b2c3";
     page_opens := true;
     navigate := fun url =>
       if String.eqb url "http://localhost:8080/" then nav
       else NameNotResolved;
     write_outcome := fun _ => w;
     png_chunks := chunks;
     close_ok := true |}.

(** A page with a heading and eighty rows below the fold. *)
Definition tall : Document :=
  {| visible := fun s => String.eqb s "h1";
     rendering :=
       replicate Image.viewport_height (row 1%N) ++ replicate 80 (row 9%N) |}.

Definition serving : Env := world (Loaded home) Written.
Definition serving_tall : Env := world (Loaded tall) Written.
Definition serving_bare : Env := world (Loaded bare) Written.
Definition down : Env := world ConnectionRefused Written.
Definition read_only : Env := world (Loaded home) (OpenFails EACCES).
Definition disk_full : Env := world (Loaded home) (WriteFails ENOSPC 3).

Definition old_file : gmap string (list Byte.byte) :=
  {[ "notes.txt" := [Byte.x68; Byte.x69] ]}.

End Sample.

(** ** [run] in a process that has been in use

    A process that imported the module can call [run] any number of
    times.  [run] does not look at whether the package is installed (the
    import did), so how far it gets is the stage of the outside world
    with the package taken as installed. *)

Definition installed (env : Env) : Env :=
  {| package_installed := true;
     driver := driver env;
     chromium_launches := chromium_launches env;
     firefox_launches := firefox_launches env;
     webkit_launches := webkit_launches env;
     profile_dir := profile_dir env;
     page_opens := page_opens env;
     navigate := navigate env;
     write_outcome := write_outcome env;
     png_chunks := png_chunks env;
     close_ok := close_ok env |}.

(** The world [run] leaves once the driver had started: what the caller
    had, no subprocess and no page, [ids] more handles used, [calls]
    more calls logged. *)
Definition ended (w : World) (files : gmap string (list Byte.byte))
    (dirs : gset string) (ended_by_driver : nat) (ids : nat)
    (calls : list (Call * bool)) : World :=
  {| fs := files; made_dirs := dirs;
     sys_argv := sys_argv w; os_environ := os_environ w;
     driver_up := false; browsers := ∅; reaped := ended_by_driver;
     windows := windows w; pages := ∅;
     next_id := ids + next_id w; log := log w ++ calls |}.

(** The browsers running once [run] has launched its own. *)
Definition launched (w : World) : gset nat := {[next_id w]} ∪ browsers w.

Definition run_final (env : Env) (w : World) (s : Stage) : Res unit * World :=
  match s with
  | NoPackage => (Ok tt, w)              (* not a stage of [run] *)
  | NoDriver e => (Raise e, record CStart false w)
  | NoBrowser =>
      (Raise (Error LaunchFailed),
       ended w (fs w) (launch_dirs env (made_dirs w))
         (reaped w + size (browsers w)) 0 (bracket (outcome_of 0 steps)))
  | NoPage =>
      (Raise (Error PageFailed),
       ended w (fs w) (launch_dirs env (made_dirs w))
         (reaped w + size (launched w)) 1 (bracket (outcome_of 1 steps)))
  | NoNavigation e =>
      (Raise e,
       ended w (fs w) (launch_dirs env (made_dirs w))
         (reaped w + size (launched w)) 2 (bracket (outcome_of 2 steps)))
  | NoHeading _ =>
      (Raise TimeoutError,
       ended w (fs w) (launch_dirs env (made_dirs w))
         (reaped w + size (launched w)) 2 (bracket (outcome_of 3 steps)))
  | NoWrite d o errno =>
      (Raise (OSError errno),
       ended w (files_after env d o (fs w)) (dirs_after env o (made_dirs w))
         (reaped w + size (launched w)) 2 (bracket (outcome_of 4 steps)))
  | NoClose d =>
      (Raise (Error CloseFailed),
       ended w (<[output_path := shot env d]> (fs w))
         (shot_dirs env (made_dirs w))
         (reaped w + size (launched w)) 2 (bracket (outcome_of 5 steps)))
  | Completed d =>
      (Ok tt,
       ended w (<[output_path := shot env d]> (fs w))
         (shot_dirs env (made_dirs w))
         (reaped w + size (launched w ∖ {[next_id w]})) 2
         (bracket (outcome_of 6 steps)))
  end.

(** A process between two runs: no driver, no browser, no page.  These
    are the states in which the synchronous API may be entered. *)
Definition idle (w : World) : Prop :=
  driver_up w = false /\ browsers w = ∅ /\ pages w = ∅.

(** More outside worlds, and a process that has already run the script
    once. *)
Module Cases.

Definition missing_package : Env :=
  {| package_installed := false;
     driver := driver Sample.serving;
     chromium_launches := fun _ => true;
     firefox_launches := fun _ => true;
     webkit_launches := fun _ => true;
     profile_dir := profile_dir Sample.serving;
     page_opens := true;
     navigate := fun _ => Loaded Sample.home;
     write_outcome := fun _ => Written;
     png_chunks := Sample.chunks;
     close_ok := true |}.

(** The bundled driver is missing, broken, or fine, on a machine where
    everything else works. *)
Definition with_driver (s : DriverStart) : Env :=
  {| package_installed := true;
     driver := fun _ => s;
     chromium_launches := fun _ => true;
     firefox_launches := fun _ => true;
     webkit_launches := fun _ => true;
     profile_dir := profile_dir Sample.serving;
     page_opens := true;
     navigate := fun _ => Loaded Sample.home;
     write_outcome := fun _ => Written;
     png_chunks := Sample.chunks;
     close_ok := true |}.

Definition no_driver : Env := with_driver NodeMissing.
Definition broken_driver : Env := with_driver DriverBreaks.

(** The server answers and the disk takes the write, but Chromium is
    not installed (Firefox is), the browser opens no page, or the
    browser does not close. *)
Definition unwell (chromium page closes : bool) : Env :=
  {| package_installed := true;
     driver := fun _ => Starts;
     chromium_launches := fun _ => chromium;
     firefox_launches := fun _ => true;
     webkit_launches := fun _ => true;
     profile_dir := profile_dir Sample.serving;
     page_opens := page;
     navigate := fun _ => Loaded Sample.home;
     write_outcome := fun _ => Written;
     png_chunks := Sample.chunks;
     close_ok := closes |}.

Definition no_chromium : Env := unwell false true true.
Definition no_page : Env := unwell true false true.
Definition stuck_close : Env := unwell true true false.

(** A disk that holds a screenshot from some earlier day. *)
Definition stale : gmap string (list Byte.byte) :=
  {[ output_path := [Byte.x2a]; "notes.txt" := [Byte.x68; Byte.x69] ]}.

(** An environment that points the driver at an executable that is not
    there. *)
Definition bad_node : gmap string string :=
  {[ node_path := "/no/such/node" ]}.

Definition used : World :=
  (python Sample.serving ["verify_mui_ui.py"] ∅ Sample.old_file).2.

End Cases.

(** ** Symbolic execution of the script *)

Ltac crunch :=
  unfold python, module, run, with_, import_sync_api, start, stop, launch,
    new_page, goto, wait_for_selector, screenshot, close, failed, done_,
    fresh_id, raise, get, modify, mbind, M_bind, mret, M_ret.

Ltac forward :=
  cbn -[parents list_to_set size take];
  rewrite ?lookup_insert_eq;
  rewrite ?bool_decide_true by set_solver;
  cbn -[parents list_to_set size take].

(** The script, run as a program from a fresh process, ends as the table
    [final] says. *)
Lemma python_final env argv environ disk :
  python env argv environ disk
  = final env argv environ disk (stage env environ).
Proof.
  unfold stage. crunch.
  destruct (package_installed env); [|reflexivity].
  forward.
  change "PLAYWRIGHT_NODEJS_PATH" with node_path.
  destruct (driver env (environ !! node_path)); [|reflexivity..].
  forward.
  destruct (chromium_launches env true); [|reflexivity].
  repeat forward.
  destruct (page_opens env); [|reflexivity].
  repeat forward.
  change "http://localhost:8080/" with target_url.
  destruct (navigate env target_url) as [d| | |]; [|reflexivity..].
  repeat forward.
  change "h1" with heading.
  destruct (visible d heading); [|reflexivity].
  repeat forward.
  change "jules-scratch/verification/verification.png" with output_path.
  destruct (write_outcome env output_path); [|reflexivity..].
  repeat forward.
  destruct (close_ok env); reflexivity.
Qed.

Lemma stage_specP env environ : stage_spec env environ (stage env environ).
Proof.
  unfold stage.
  destruct (package_installed env) eqn:Hp; cbn; [|by constructor].
  destruct (driver env (environ !! node_path)) eqn:Hd; cbn;
    [|by constructor; [done | rewrite Hd]..].
  destruct (chromium_launches env true) eqn:Hl; cbn; [|by constructor].
  destruct (page_opens env) eqn:Ho; cbn; [|by constructor].
  destruct (navigate env target_url) as [d| | |] eqn:Hn;
    try (constructor; [done..| by rewrite Hn]).
  destruct (visible d heading) eqn:Hv; cbn; [|by constructor].
  destruct (fs_error (write_outcome env output_path)) as [errno|] eqn:Hw.
  - by constructor.
  - destruct (write_outcome env output_path) eqn:Ho'; try discriminate.
    destruct (close_ok env) eqn:Hc; by constructor.
Qed.

(** Unfold the observations and replace the run by its table entry,
    with the facts about the outside world that select the entry. *)
Ltac case_stage e v :=
  let Hs := fresh "Hs" in
  pose proof (stage_specP e v) as Hs;
  destruct (stage e v) in *; inversion Hs; subst; clear Hs.

Ltac by_stage :=
  unfold disk_after_two, status, result, after, ran, made in *;
  rewrite !python_final in *;
  repeat match goal with
         | |- context [stage ?e ?v] => case_stage e v
         | H : context [stage ?e ?v] |- _ => case_stage e v
         end;
  cbn [final fst snd halted exit_status fs log browsers driver_up pages
       windows next_id sys_argv os_environ made_dirs reaped] in *.

(** Split a membership in a concrete log into its cases. *)
Ltac in_log H :=
  apply bool_decide_eq_true_1 in H;
  unfold bracket, steps in H; cbn [outcome_of app] in H;
  rewrite ?elem_of_cons, ?elem_of_nil in H;
  repeat (destruct H as [H|H]); try done; try (inversion H; subst; clear H).

(** Two facts about the outside world that cannot both hold. *)
Ltac clash :=
  solve [ congruence
        | match goal with
          | H : navigate ?e ?u = Loaded _,
            H' : loads (navigate ?e ?u) = false |- _ =>
              rewrite H in H'; discriminate H'
          | H : write_outcome ?e ?p = Written,
            H' : fs_error (write_outcome ?e ?p) = Some _ |- _ =>
              rewrite H in H'; discriminate H'
          | H : driver ?e ?v = Starts,
            H' : start_error (driver ?e ?v) = Some _ |- _ =>
              rewrite H in H'; discriminate H'
          end ].

(** ** The with-statement and the driver, from any world *)

(** Once [__enter__] has returned, the world a with-statement ends in is
    the one [__exit__] leaves, however the body ended. *)
Lemma with_runs_exit {R A} (enter : M R) (exit : option Exn -> M bool)
    (body : R -> M A) w r w1 :
  enter w = (Ok r, w1) ->
  exists pending,
    (with_ enter exit body w).2 = (exit pending (body r w1).2).2.
Proof.
  intros He. unfold with_. rewrite He.
  destruct (body r w1) as [[a|e] w2].
  - exists None. cbn. by destruct (exit None w2) as [[?|?] ?].
  - exists (Some e). cbn. by destruct (exit (Some e) w2) as [[[|]|?] ?].
Qed.

(** An exception raised in the body of a with-statement whose exit
    returns false comes out of the statement. *)
Lemma with_reraises {R A} (enter : M R) (exit : option Exn -> M bool)
    (body : R -> M A) w r w1 e w2 w3 :
  enter w = (Ok r, w1) ->
  body r w1 = (Raise e, w2) ->
  exit (Some e) w2 = (Ok false, w3) ->
  with_ enter exit body w = (Raise e, w3).
Proof. intros He Hb Hx. unfold with_. by rewrite He, Hb, Hx. Qed.

(** Stopping the driver leaves no subprocess and no page, counts the
    browsers it had to end, and does not touch the disk. *)
Lemma stop_releases pending w :
  (stop pending w).1 = Ok false /\
  driver_up (stop pending w).2 = false /\
  browsers (stop pending w).2 = ∅ /\
  pages (stop pending w).2 = ∅ /\
  reaped (stop pending w).2 = reaped w + size (browsers w) /\
  fs (stop pending w).2 = fs w.
Proof. done. Qed.

(** So [run] leaves no browser behind from whatever world it starts in,
    as soon as the driver starts. *)
Lemma run_releases_from env w :
  driver env (os_environ w !! node_path) = Starts ->
  browsers (run env w).2 = ∅ /\ driver_up (run env w).2 = false.
Proof.
  intros Hd. unfold run.
  set (body := fun p : Playwright => _).
  assert (Hs : exists r w1, start env w = (Ok r, w1)).
  { unfold start, get, mbind, M_bind.
    change "PLAYWRIGHT_NODEJS_PATH" with node_path. rewrite Hd.
    by eexists _, _. }
  destruct Hs as (r & w1 & Hs).
  destruct (with_runs_exit (start env) stop body w r w1 Hs) as [pending Hw].
  assert (Hrun : ((with_ (start env) stop body ;; mret tt) w).2
                 = (with_ (start env) stop body w).2).
  { unfold mbind, M_bind.
    by destruct (with_ (start env) stop body w) as [[a|e] w']. }
  rewrite Hrun, Hw. split; apply stop_releases.
Qed.

(** ** Logs of straight-line runs *)

Lemma outcome_of_before n cs i j c ok :
  i < j ->
  outcome_of n cs !! j = Some (c, ok) ->
  exists c', outcome_of n cs !! i = Some (c', true).
Proof.
  revert n i j. induction cs as [|a cs IH]; intros n i j Hij Hj.
  - destruct n; discriminate.
  - destruct n as [|n]; cbn in *.
    + destruct j as [|j]; [lia|]. destruct j; discriminate.
    + destruct j as [|j]; [lia|]. destruct i as [|i]; [by eexists|].
      apply (IH n i j); [lia | exact Hj].
Qed.

Lemma outcome_of_calls n cs j c ok :
  outcome_of n cs !! j = Some (c, ok) -> cs !! j = Some c.
Proof.
  revert n j. induction cs as [|a cs IH]; intros n j Hj.
  - destruct n; discriminate.
  - destruct n as [|n]; cbn in *.
    + destruct j as [|j]; [by inversion Hj|]. destruct j; discriminate.
    + destruct j as [|j]; [by inversion Hj|]. by apply (IH n).
Qed.

Lemma stop_not_step : CStop ∉ steps.
Proof. compute_done. Qed.

Lemma bracket_before body i j c ok :
  (forall i j c ok, i < j -> body !! j = Some (c, ok) ->
     exists c', body !! i = Some (c', true)) ->
  i < j ->
  bracket body !! j = Some (c, ok) ->
  c <> CStop ->
  exists c', bracket body !! i = Some (c', true).
Proof.
  intros Hbody Hij Hj Hc. unfold bracket in *.
  destruct j as [|j]; [lia|].
  change ((body ++ [(CStop, true)]) !! j = Some (c, ok)) in Hj.
  destruct (decide (j < length body)) as [Hlt|Hge].
  - rewrite lookup_app_l in Hj by done.
    destruct i as [|i]; [by eexists|].
    change (exists c', (body ++ [(CStop, true)]) !! i = Some (c', true)).
    rewrite lookup_app_l by lia.
    apply (Hbody i j c ok); [lia | done].
  - rewrite lookup_app_r in Hj by lia.
    destruct (j - length body) as [|k]; [|by destruct k].
    inversion Hj. congruence.
Qed.

(** C1: every run makes the calls chromium.launch(headless=True),
    new_page, goto(the fixed URL), wait_for_selector(h1),
    screenshot(the fixed path) and close, once each and in this order,
    up to the first one that raises: the calls inside the
    with-statement are a prefix of [steps] in which every call but
    possibly the last went through; a step is only made after every
    earlier call went through; and a run that raises nothing made all
    six, the last of which ended the browser, so that stopping the
    driver had none left to end. *)
Theorem run_linear_sequence env argv environ disk :
  (log (after env argv environ disk) = [] \/
   log (after env argv environ disk) = [(CStart, false)] \/
   exists n,
     log (after env argv environ disk) = bracket (outcome_of n steps)) /\
  (forall i j c ok,
     i < j ->
     log (after env argv environ disk) !! j = Some (c, ok) ->
     c ∈ steps ->
     exists c', log (after env argv environ disk) !! i = Some (c', true)) /\
  (forall u, result env argv environ disk = Ok u ->
     log (after env argv environ disk)
     = [ (CStart, true);
         (CLaunch Chromium (Some true), true);
         (CNewPage, true);
         (CGoto "http://localhost:8080/", true);
         (CWaitForSelector "h1", true);
         (CScreenshot (Some "jules-scratch/verification/verification.png")
            None, true);
         (CClose, true);
         (CStop, true) ] /\
     reaped (after env argv environ disk) = 0).
Proof.
  assert (Hsteps : forall n i j c ok, i < j ->
            bracket (outcome_of n steps) !! j = Some (c, ok) ->
            c ∈ steps ->
            exists c', bracket (outcome_of n steps) !! i = Some (c', true)).
  { intros n i j c ok Hij Hj Hc.
    apply (bracket_before _ i j c ok); try done.
    - intros. by eapply outcome_of_before.
    - intros ->. by apply stop_not_step. }
  by_stage.
  all: split; [|split].
  all: try (intros u Hu; (discriminate Hu || (split; reflexivity))).
  all: try (intros i j c ok Hij Hj Hc; by eapply Hsteps).
  all: try (intros i j c ok Hij Hj Hc; destruct j as [|[|j]]; [lia|..]; discriminate).
  - by left.
  - right. by left.
  - right; right. by exists 0.
  - right; right. by exists 1.
  - right; right. by exists 2.
  - right; right. by exists 3.
  - right; right. by exists 4.
  - right; right. by exists 5.
  - right; right. by exists 6.
Qed.

Lemma run_linear_sequence_witness :
  log (after Sample.serving [] ∅ ∅)
  = [ (CStart, true);
      (CLaunch Chromium (Some true), true);
      (CNewPage, true);
      (CGoto "http://localhost:8080/", true);
      (CWaitForSelector "h1", true);
      (CScreenshot (Some "jules-scratch/verification/verification.png")
         None, true);
      (CClose, true);
      (CStop, true) ] /\
  reaped (after Sample.serving [] ∅ ∅) = 0.
Proof.
  apply (proj2 (proj2 (run_linear_sequence Sample.serving [] ∅ ∅)) tt).
  reflexivity.
Defined.

(** C2, as stated, fails: the server answers, the page shows the
    heading and the disk takes the write, yet with Chromium not
    installed the run exits with a non-zero status and writes no
    file. *)
Lemma run_success_needs_browser :
  navigate Cases.no_chromium target_url = Loaded Sample.home /\
  visible Sample.home heading = true /\
  write_outcome Cases.no_chromium output_path = Written /\
  status Cases.no_chromium [] ∅ ∅ <> 0%Z /\
  fs (after Cases.no_chromium [] ∅ ∅) !! output_path = None.
Proof. repeat split; done. Qed.

(** C2, amended: when the package imports, the driver starts, Chromium
    launches, the page opens, the server at the fixed URL answers with
    a page that shows the heading within the timeout, the disk takes
    the write and the browser closes, the interpreter exits with status
    0 and the output path holds the PNG of the page, which is not
    empty. *)
Theorem run_success env argv environ disk d :
  package_installed env = true ->
  driver env (environ !! node_path) = Starts ->
  chromium_launches env true = true ->
  page_opens env = true ->
  navigate env target_url = Loaded d ->
  visible d heading = true ->
  write_outcome env output_path = Written ->
  close_ok env = true ->
  status env argv environ disk = 0%Z /\
  fs (after env argv environ disk) !! output_path
  = Some (Image.png_signature
          ++ png_chunks env (Image.capture false (rendering d))) /\
  exists data,
    fs (after env argv environ disk) !! output_path = Some data /\
    data <> [].
Proof.
  intros Hp Hd Hl Ho Hn Hv Hw Hc.
  by_stage; try congruence;
    try match goal with
        | H : start_error _ = Some _ |- _ => by rewrite Hd in H
        | H : loads _ = false |- _ => by rewrite Hn in H
        | H : fs_error _ = Some _ |- _ => by rewrite Hw in H
        end.
  assert (d0 = d) as -> by congruence.
  split; [reflexivity|]. rewrite lookup_insert_eq.
  split; [reflexivity|]. eexists. split; [reflexivity|]. discriminate.
Qed.

Lemma run_success_witness :
  status Sample.serving [] ∅ Sample.old_file = 0%Z /\
  fs (after Sample.serving [] ∅ Sample.old_file) !! output_path
  = Some (Image.png_signature
          ++ png_chunks Sample.serving
               (Image.capture false (rendering Sample.home))) /\
  exists data,
    fs (after Sample.serving [] ∅ Sample.old_file) !! output_path = Some data /\
    data <> [].
Proof.
  apply (run_success Sample.serving [] ∅ Sample.old_file Sample.home);
    reflexivity.
Defined.

(** No screenshot call occurs in a log that stops before the fifth
    step. *)
Lemma no_screenshot_before n :
  n < 4 ->
  forall p f ok, (CScreenshot p f, ok) ∉ bracket (outcome_of n steps).
Proof.
  intros Hn p f ok.
  destruct n as [|[|[|[|n]]]]; [..|lia];
    unfold bracket, steps; cbn [outcome_of app];
    rewrite !elem_of_cons, elem_of_nil; intros H;
    repeat destruct H as [H|H]; done.
Qed.

(** C3: in a run where the page was loaded but shows no h1 within the
    timeout, the wait raises TimeoutError, which ends the interpreter
    with a non-zero status; no screenshot call is made and the disk is
    left as it was. *)
Theorem run_heading_timeout env argv environ disk d :
  ran (CGoto target_url) (after env argv environ disk) = true ->
  navigate env target_url = Loaded d ->
  visible d heading = false ->
  result env argv environ disk = Raise TimeoutError /\
  status env argv environ disk <> 0%Z /\
  (forall path full_page ok,
     (CScreenshot path full_page, ok) ∉ log (after env argv environ disk)) /\
  fs (after env argv environ disk) = disk.
Proof.
  intros Hgoto Hnav Hvis. by_stage; try discriminate; try congruence.
  repeat split; [done|]. by apply no_screenshot_before; lia.
Qed.

Lemma run_heading_timeout_witness :
  result Sample.serving_bare [] ∅ Sample.old_file = Raise TimeoutError /\
  status Sample.serving_bare [] ∅ Sample.old_file <> 0%Z /\
  (forall path full_page ok,
     (CScreenshot path full_page, ok)
       ∉ log (after Sample.serving_bare [] ∅ Sample.old_file)) /\
  fs (after Sample.serving_bare [] ∅ Sample.old_file) = Sample.old_file.
Proof.
  apply (run_heading_timeout Sample.serving_bare [] ∅ Sample.old_file Sample.bare);
    reflexivity.
Defined.

(** C4: in a run where the browser was launched, no browser subprocess
    (and no driver and no page) is left when the interpreter exits,
    whichever later call failed, opening the page included: the
    browser is ended by the script's own close when that call went
    through, and otherwise by stopping the driver, which leaving the
    with-statement does as the last call of the run. *)
Theorem run_releases_browser env argv environ disk :
  ran (CLaunch Chromium (Some true)) (after env argv environ disk) = true ->
  browsers (after env argv environ disk) = ∅ /\
  driver_up (after env argv environ disk) = false /\
  pages (after env argv environ disk) = ∅ /\
  last (log (after env argv environ disk)) = Some (CStop, true) /\
  reaped (after env argv environ disk)
  = (if ran CClose (after env argv environ disk) then 0 else 1).
Proof.
  intros Hlaunch. by_stage; try discriminate; done.
Qed.

Lemma run_releases_browser_witness :
  browsers (after Cases.no_page [] ∅ ∅) = ∅ /\
  driver_up (after Cases.no_page [] ∅ ∅) = false /\
  pages (after Cases.no_page [] ∅ ∅) = ∅ /\
  last (log (after Cases.no_page [] ∅ ∅)) = Some (CStop, true) /\
  reaped (after Cases.no_page [] ∅ ∅)
  = (if ran CClose (after Cases.no_page [] ∅ ∅) then 0 else 1).
Proof.
  apply (run_releases_browser Cases.no_page [] ∅ ∅); reflexivity.
Defined.

(** C5: in a run where the navigation fails (refused connection,
    unresolved name or timeout), the interpreter exits with a non-zero
    status and the disk is left as it was, so no file appears at the
    output path. *)
Theorem run_unreachable env argv environ disk :
  loads (navigate env target_url) = false ->
  status env argv environ disk <> 0%Z /\
  fs (after env argv environ disk) = disk /\
  (disk !! output_path = None ->
   fs (after env argv environ disk) !! output_path = None).
Proof.
  intros Hnav.
  by_stage; try done;
    match goal with
    | H : navigate _ _ = Loaded _ |- _ => by rewrite H in Hnav
    end.
Qed.

Lemma run_unreachable_witness :
  status Sample.down [] ∅ Sample.old_file <> 0%Z /\
  fs (after Sample.down [] ∅ Sample.old_file) = Sample.old_file /\
  (Sample.old_file !! output_path = None ->
   fs (after Sample.down [] ∅ Sample.old_file) !! output_path = None).
Proof.
  apply (run_unreachable Sample.down [] ∅ Sample.old_file); reflexivity.
Defined.

(** C6: in a run where every call up to the wait went through and the
    screenshot fails on the disk, with whatever errno and at whatever
    step (making the parent directories, opening the file, writing the
    bytes), the OSError is what [run] raises: nothing catches it and the
    interpreter exits with a non-zero status, without reaching close.
    What is on disk then depends on the step: nothing changed when the
    directories or the opening failed, and the bytes written so far,
    in place of any earlier file, when the writing failed. *)
Theorem run_write_failure env argv environ disk d errno :
  ran (CWaitForSelector heading) (after env argv environ disk) = true ->
  navigate env target_url = Loaded d ->
  fs_error (write_outcome env output_path) = Some errno ->
  result env argv environ disk = Raise (OSError errno) /\
  status env argv environ disk <> 0%Z /\
  (CScreenshot (Some output_path) None, false)
    ∈ log (after env argv environ disk) /\
  made CClose true (after env argv environ disk) = false /\
  made CClose false (after env argv environ disk) = false /\
  fs (after env argv environ disk)
  = match write_outcome env output_path with
    | WriteFails _ n => <[output_path := take n (shot env d)]> disk
    | _ => disk
    end.
Proof.
  intros Hwait Hnav Hwrite.
  by_stage; try discriminate; try congruence;
    try match goal with
        | H : write_outcome _ _ = Written |- _ => by rewrite H in Hwrite
        end.
  assert (d0 = d) as -> by congruence.
  repeat split; try done; try congruence.
  - set_solver.
  - unfold files_after. by destruct (write_outcome env output_path).
Qed.

Lemma run_write_failure_witness :
  result Sample.disk_full [] ∅ Cases.stale = Raise (OSError ENOSPC) /\
  status Sample.disk_full [] ∅ Cases.stale <> 0%Z /\
  (CScreenshot (Some output_path) None, false)
    ∈ log (after Sample.disk_full [] ∅ Cases.stale) /\
  made CClose true (after Sample.disk_full [] ∅ Cases.stale) = false /\
  made CClose false (after Sample.disk_full [] ∅ Cases.stale) = false /\
  fs (after Sample.disk_full [] ∅ Cases.stale)
  = match write_outcome Sample.disk_full output_path with
    | WriteFails _ n =>
        <[output_path := take n (shot Sample.disk_full Sample.home)]> Cases.stale
    | _ => Cases.stale
    end.
Proof.
  apply (run_write_failure Sample.disk_full [] ∅ Cases.stale Sample.home ENOSPC);
    reflexivity.
Defined.






(** C9: whenever a run calls launch, it passes headless=True; no run
    opens a visible window. *)
Theorem run_launch_headless env argv environ disk bt h ok :
  made (CLaunch bt h) ok (after env argv environ disk) = true ->
  h = Some true /\
  windows (after env argv environ disk) = 0.
Proof.
  intros Hl. by_stage; in_log Hl; done.
Qed.

Lemma run_launch_headless_witness :
  Some true = Some true /\
  windows (after Sample.serving [] ∅ ∅) = 0.
Proof.
  apply (run_launch_headless Sample.serving [] ∅ ∅ Chromium (Some true) true).
  reflexivity.
Defined.

(** The default capture is one viewport tall and shows the top of the
    document; the full-page capture of a taller document is taller. *)
Lemma capture_height doc :
  length (Image.capture false doc) = Image.viewport_height.
Proof.
  unfold Image.capture, Image.pad.
  rewrite length_take, length_app, length_replicate. lia.
Qed.

Lemma capture_above above below :
  length above = Image.viewport_height ->
  Image.capture false (above ++ below) = above.
Proof.
  intros Hlen. unfold Image.capture, Image.pad.
  rewrite <- (assoc_L (++)). by apply take_app_length'.
Qed.

Lemma capture_full_differs doc :
  Image.viewport_height < length doc ->
  Image.capture true doc <> Image.capture false doc.
Proof.
  intros Hlen Heq. apply (f_equal length) in Heq.
  rewrite capture_height in Heq. unfold Image.capture, Image.pad in Heq.
  rewrite length_app, length_replicate in Heq. lia.
Qed.

(** C10: every screenshot call a run makes leaves full_page out, and
    gives the fixed path.  When the call went through, the file at that
    path is the PNG of the default capture of the page: one viewport
    tall, equal to the part of the document above the fold whatever
    lies below it, and not the full-page capture when the document is
    taller than the viewport. *)
Theorem run_screenshot_viewport env argv environ disk path full_page ok d :
  made (CScreenshot path full_page) ok (after env argv environ disk) = true ->
  navigate env target_url = Loaded d ->
  full_page = None /\
  path = Some "jules-scratch/verification/verification.png" /\
  (ok = true ->
   fs (after env argv environ disk)
     !! "jules-scratch/verification/verification.png"
   = Some (Image.png_encode (png_chunks env)
             (Image.capture false (rendering d)))) /\
  length (Image.capture false (rendering d)) = Image.viewport_height /\
  (forall above below,
     rendering d = above ++ below ->
     length above = Image.viewport_height ->
     Image.capture false (rendering d) = above) /\
  (Image.viewport_height < length (rendering d) ->
   Image.capture true (rendering d) <> Image.capture false (rendering d)).
Proof.
  intros Hshot Hnav.
  assert (Hcap :
    length (Image.capture false (rendering d)) = Image.viewport_height /\
    (forall above below,
       rendering d = above ++ below ->
       length above = Image.viewport_height ->
       Image.capture false (rendering d) = above) /\
    (Image.viewport_height < length (rendering d) ->
     Image.capture true (rendering d) <> Image.capture false (rendering d))).
  { split; [apply capture_height|]. split.
    - intros above below -> Hlen. by apply capture_above.
    - apply capture_full_differs. }
  by_stage; in_log Hshot; (split; [done|]); (split; [done|]);
    (split; [|exact Hcap]); try discriminate; intros _.
  all: assert (d0 = d) as -> by congruence.
  all: change "jules-scratch/verification/verification.png" with output_path.
  all: by rewrite lookup_insert_eq.
Qed.

Lemma run_screenshot_viewport_witness :
  @None bool = None /\
  Some output_path = Some "jules-scratch/verification/verification.png" /\
  (true = true ->
   fs (after Sample.serving_tall [] ∅ ∅)
     !! "jules-scratch/verification/verification.png"
   = Some (Image.png_encode (png_chunks Sample.serving_tall)
             (Image.capture false (rendering Sample.tall)))) /\
  length (Image.capture false (rendering Sample.tall)) = Image.viewport_height /\
  (forall above below,
     rendering Sample.tall = above ++ below ->
     length above = Image.viewport_height ->
     Image.capture false (rendering Sample.tall) = above) /\
  (Image.viewport_height < length (rendering Sample.tall) ->
   Image.capture true (rendering Sample.tall)
   <> Image.capture false (rendering Sample.tall)).
Proof.
  apply (run_screenshot_viewport Sample.serving_tall [] ∅ ∅
           (Some output_path) None true Sample.tall);
    reflexivity.
Defined.

(** ** The rest of the module: the import, the guard, and [run] called
    again *)

(** Logging call after call is appending the calls; with the log written
    that way, the world a symbolic run ends in is [ended] as it stands. *)
Lemma snoc_all {A} (l calls : list A) :
  foldl (fun acc c => acc ++ [c]) l calls = l ++ calls.
Proof.
  revert l. induction calls as [|c calls IH]; intros l; cbn.
  - by rewrite app_nil_r.
  - by rewrite IH, <- (assoc_L (++)).
Qed.

Ltac finish :=
  cbn [run_final negb start_error fs_error];
  unfold ended; rewrite <- snoc_all; reflexivity.

(** [run], called in any state of the process, ends as the table
    [run_final] says. *)
Lemma run_from env w :
  run env w = run_final env w (stage (installed env) (os_environ w)).
Proof.
  unfold stage. cbn [installed package_installed driver chromium_launches
    page_opens navigate write_outcome close_ok negb].
  crunch.
  change "PLAYWRIGHT_NODEJS_PATH" with node_path.
  destruct (driver env (os_environ w !! node_path)); [|reflexivity..].
  forward.
  destruct (chromium_launches env true); [|finish].
  repeat forward.
  destruct (page_opens env); [|finish].
  repeat forward.
  change "http://localhost:8080/" with target_url.
  destruct (navigate env target_url) as [d| | |]; [|finish..].
  repeat forward.
  change "h1" with heading.
  destruct (visible d heading); [|finish].
  repeat forward.
  change "jules-scratch/verification/verification.png" with output_path.
  destruct (write_outcome env output_path); [|finish..].
  repeat forward.
  destruct (close_ok env); finish.
Qed.

Ltac by_run_stage :=
  rewrite !run_from in *;
  cbn [os_environ boot] in *;
  repeat match goal with
         | |- context [stage (installed ?e) ?v] => case_stage (installed e) v
         | H : context [stage (installed ?e) ?v] |- _ =>
             case_stage (installed e) v
         end;
  cbn [run_final fst snd ended record fs log browsers driver_up pages
       windows next_id sys_argv os_environ made_dirs reaped boot
       installed package_installed driver chromium_launches page_opens
       navigate write_outcome png_chunks close_ok] in *.

(** X1: when the playwright package cannot be imported, the first line
    of the file raises ModuleNotFoundError: the interpreter exits with a
    non-zero status before any call is made, and the disk is left as it
    was. *)
Theorem import_failure env argv environ disk :
  package_installed env = false ->
  result env argv environ disk = Raise ModuleNotFoundError /\
  status env argv environ disk <> 0%Z /\
  log (after env argv environ disk) = [] /\
  fs (after env argv environ disk) = disk.
Proof.
  intros Hp. by_stage; try congruence. done.
Qed.

Lemma import_failure_witness :
  result Cases.missing_package [] ∅ Cases.stale = Raise ModuleNotFoundError /\
  status Cases.missing_package [] ∅ Cases.stale <> 0%Z /\
  log (after Cases.missing_package [] ∅ Cases.stale) = [] /\
  fs (after Cases.missing_package [] ∅ Cases.stale) = Cases.stale.
Proof.
  apply (import_failure Cases.missing_package [] ∅ Cases.stale). reflexivity.
Defined.

(** X2: loaded under any name but __main__ (that is, imported), the
    module calls nothing: the process is left exactly as it was, and the
    import raises only when the package is missing. *)
Theorem imported_module_is_inert env name w :
  name <> "__main__" ->
  (module env name w).2 = w /\
  (module env name w).1
  = (if package_installed env then Ok tt else Raise ModuleNotFoundError).
Proof.
  intros Hname. apply String.eqb_neq in Hname.
  unfold module, import_sync_api, raise, mbind, M_bind, mret, M_ret.
  rewrite Hname. by destruct (package_installed env).
Qed.

Lemma imported_module_is_inert_witness :
  (module Sample.serving "verify_mui_ui" Cases.used).2 = Cases.used /\
  (module Sample.serving "verify_mui_ui" Cases.used).1
  = (if package_installed Sample.serving
     then Ok tt else Raise ModuleNotFoundError).
Proof.
  apply (imported_module_is_inert Sample.serving "verify_mui_ui" Cases.used).
  discriminate.
Defined.

(** X3: importing the module and then calling [run] is the same as
    running the file as a script, from any state of the process. *)
Theorem import_then_run env name w :
  name <> "__main__" ->
  (module env name ;; run env) w = module env "__main__" w.
Proof.
  intros Hname. apply String.eqb_neq in Hname.
  unfold module, import_sync_api, raise, mbind, M_bind, mret, M_ret.
  rewrite Hname. cbn. by destruct (package_installed env).
Qed.

Lemma import_then_run_witness :
  (module Sample.read_only "verify_mui_ui" ;; run Sample.read_only)
    (boot [] ∅ Cases.stale)
  = module Sample.read_only "__main__" (boot [] ∅ Cases.stale).
Proof.
  apply (import_then_run Sample.read_only "verify_mui_ui"). discriminate.
Defined.

(** X4: when the driver cannot be started, entering the with-statement
    raises what the start raised, FileNotFoundError for a missing
    executable and a plain Exception for a driver that breaks: the
    start is the only call of the run, in particular the driver is not
    stopped and no browser is launched, and no file or directory is
    made. *)
Theorem driver_failure env argv environ disk e :
  package_installed env = true ->
  start_error (driver env (environ !! "PLAYWRIGHT_NODEJS_PATH")) = Some e ->
  result env argv environ disk = Raise e /\
  (e = OSError ENOENT \/ e = Exception) /\
  (driver env (environ !! "PLAYWRIGHT_NODEJS_PATH") = NodeMissing ->
   e = OSError ENOENT) /\
  status env argv environ disk <> 0%Z /\
  log (after env argv environ disk) = [(CStart, false)] /\
  fs (after env argv environ disk) = disk /\
  made_dirs (after env argv environ disk) = ∅.
Proof.
  change "PLAYWRIGHT_NODEJS_PATH" with node_path.
  intros Hp Hd. by_stage; try clash.
  assert (e0 = e) as -> by congruence.
  repeat split; try done.
  - destruct (driver env (environ !! node_path)); simplify_eq/=; auto.
  - intros Hm. rewrite Hm in Hd. by simplify_eq/=.
Qed.

Lemma driver_failure_witness :
  result Sample.serving [] Cases.bad_node ∅ = Raise (OSError ENOENT) /\
  (OSError ENOENT = OSError ENOENT \/ OSError ENOENT = Exception) /\
  (driver Sample.serving (Cases.bad_node !! "PLAYWRIGHT_NODEJS_PATH")
   = NodeMissing ->
   OSError ENOENT = OSError ENOENT) /\
  status Sample.serving [] Cases.bad_node ∅ <> 0%Z /\
  log (after Sample.serving [] Cases.bad_node ∅) = [(CStart, false)] /\
  fs (after Sample.serving [] Cases.bad_node ∅) = ∅ /\
  made_dirs (after Sample.serving [] Cases.bad_node ∅) = ∅.
Proof.
  apply (driver_failure Sample.serving [] Cases.bad_node ∅ (OSError ENOENT));
    reflexivity.
Defined.

(** X5: when the driver started but Chromium cannot be launched, the
    launch raises out of [run]: non-zero status, no page is opened and
    nothing is navigated or captured, the driver is stopped all the
    same, and the disk is left as it was. *)
Theorem launch_failure env argv environ disk :
  ran CStart (after env argv environ disk) = true ->
  chromium_launches env true = false ->
  result env argv environ disk = Raise (Error LaunchFailed) /\
  status env argv environ disk <> 0%Z /\
  log (after env argv environ disk)
  = [(CStart, true); (CLaunch Chromium (Some true), false); (CStop, true)] /\
  fs (after env argv environ disk) = disk.
Proof.
  intros Hs Hl. by_stage; try discriminate; try congruence. done.
Qed.

Lemma launch_failure_witness :
  result Cases.no_chromium [] ∅ ∅ = Raise (Error LaunchFailed) /\
  status Cases.no_chromium [] ∅ ∅ <> 0%Z /\
  log (after Cases.no_chromium [] ∅ ∅)
  = [(CStart, true); (CLaunch Chromium (Some true), false); (CStop, true)] /\
  fs (after Cases.no_chromium [] ∅ ∅) = ∅.
Proof.
  apply (launch_failure Cases.no_chromium [] ∅ ∅); reflexivity.
Defined.

(** X6: in every run the driver is stopped exactly when it was started,
    whichever call failed in between, and no run ends with the driver
    up. *)
Theorem stop_iff_start env argv environ disk :
  ran CStop (after env argv environ disk)
  = ran CStart (after env argv environ disk) /\
  driver_up (after env argv environ disk) = false.
Proof. by_stage; done. Qed.

Lemma stop_iff_start_witness :
  ran CStop (after Cases.no_chromium [] ∅ ∅)
  = ran CStart (after Cases.no_chromium [] ∅ ∅) /\
  driver_up (after Cases.no_chromium [] ∅ ∅) = false.
Proof. exact (stop_iff_start Cases.no_chromium [] ∅ ∅). Defined.

(** X7: the exit status is 0 exactly when the script's last call, the
    close, went through, and then the screenshot call went through
    before it.  The converse fails: whenever the screenshot call went
    through, the file is at the output path, also in a run that exits
    with a non-zero status because the close raised afterwards. *)
Theorem status_reports_close env argv environ disk :
  (status env argv environ disk = 0%Z <->
   ran CClose (after env argv environ disk) = true) /\
  (status env argv environ disk = 0%Z ->
   ran (CScreenshot (Some output_path) None)
     (after env argv environ disk) = true) /\
  (ran (CScreenshot (Some output_path) None)
     (after env argv environ disk) = true ->
   exists d, navigate env target_url = Loaded d /\
     fs (after env argv environ disk) !! output_path = Some (shot env d)) /\
  (made CClose false (after env argv environ disk) = true ->
   status env argv environ disk <> 0%Z /\
   exists d, navigate env target_url = Loaded d /\
     fs (after env argv environ disk) !! output_path = Some (shot env d)).
Proof.
  by_stage; repeat split; try done.
  all: try (intros _; eexists; split; [eassumption | apply lookup_insert_eq]).
  eexists; split; [eassumption | apply lookup_insert_eq].
Qed.

Lemma status_reports_close_witness :
  status Cases.stuck_close [] ∅ ∅ <> 0%Z /\
  exists d, navigate Cases.stuck_close target_url = Loaded d /\
    fs (after Cases.stuck_close [] ∅ ∅) !! output_path
    = Some (shot Cases.stuck_close d).
Proof.
  apply (proj2 (proj2 (proj2
           (status_reports_close Cases.stuck_close [] ∅ ∅)))).
  reflexivity.
Defined.

(** X8: a run that never gets to the screenshot call, whatever stopped
    it, exits with a non-zero status and leaves every file as it was; a
    screenshot from an earlier run is then still at the output path. *)
Theorem early_failure_keeps_files env argv environ disk :
  made (CScreenshot (Some output_path) None) true
    (after env argv environ disk) = false ->
  made (CScreenshot (Some output_path) None) false
    (after env argv environ disk) = false ->
  status env argv environ disk <> 0%Z /\
  fs (after env argv environ disk) = disk /\
  (forall old,
     disk !! output_path = Some old ->
     fs (after env argv environ disk) !! output_path = Some old).
Proof.
  intros Hok Hko. by_stage; done.
Qed.

Lemma early_failure_keeps_files_witness :
  status Cases.no_page [] ∅ Cases.stale <> 0%Z /\
  fs (after Cases.no_page [] ∅ Cases.stale) = Cases.stale /\
  (forall old,
     Cases.stale !! output_path = Some old ->
     fs (after Cases.no_page [] ∅ Cases.stale) !! output_path = Some old).
Proof.
  apply (early_failure_keeps_files Cases.no_page [] ∅ Cases.stale);
    reflexivity.
Defined.

(** X10: a failed call is never swallowed: if any call of the run
    raised, the interpreter exits with a non-zero status. *)
Theorem failure_is_fatal env argv environ disk c :
  made c false (after env argv environ disk) = true ->
  status env argv environ disk <> 0%Z.
Proof.
  intros Hc. by_stage; try done. by in_log Hc.
Qed.

Lemma failure_is_fatal_witness :
  status Sample.read_only [] ∅ ∅ <> 0%Z.
Proof.
  apply (failure_is_fatal Sample.read_only [] ∅ ∅
           (CScreenshot (Some output_path) None)).
  reflexivity.
Defined.

(** X12: called in an idle process that has been in use, [run] does what
    it does in a fresh one with the same environment variables on the
    same disk: the same result, the same files afterwards, and the same
    calls, appended to the log. *)
Theorem run_in_used_process env w argv :
  idle w ->
  (run env w).1 = (run env (boot argv (os_environ w) (fs w))).1 /\
  fs (run env w).2 = fs (run env (boot argv (os_environ w) (fs w))).2 /\
  log (run env w).2
  = log w ++ log (run env (boot argv (os_environ w) (fs w))).2.
Proof.
  intros _. by_run_stage; done.
Qed.

Lemma run_in_used_process_witness :
  (run Sample.serving_tall Cases.used).1
  = (run Sample.serving_tall
       (boot [] (os_environ Cases.used) (fs Cases.used))).1 /\
  fs (run Sample.serving_tall Cases.used).2
  = fs (run Sample.serving_tall
          (boot [] (os_environ Cases.used) (fs Cases.used))).2 /\
  log (run Sample.serving_tall Cases.used).2
  = log Cases.used
    ++ log (run Sample.serving_tall
              (boot [] (os_environ Cases.used) (fs Cases.used))).2.
Proof.
  apply (run_in_used_process Sample.serving_tall Cases.used []).
  repeat split; reflexivity.
Defined.




